(** * Artisan catalog: the data-sync and view-state layer of [src/App.jsx]

    A shallow embedding of the React component tree of [App.jsx]:
    the root component [App] (state, [fetchData], the three database
    actions, the renderer) and its sub-components [HomeView],
    [CatalogView], [ProductCard], [AdminLogin] and [AdminDashboard].

    Conventions of the embedding.
    - React state is a record; a call of a state setter is an effect that
      is both applied to the record and written to the trace.
    - The Supabase client, [window.confirm], [window.alert] and
      [console.error] are the outside world.  What the world answers is
      given by an instance of the class [Supabase]; what the program asks
      of it is written to the trace.
    - An [async] function is a computation in the monad [Js]; an event
      handler runs to completion before the next event is handled, so an
      [await] is sequencing and a call of an async function that is not
      awaited is sequenced where its effects happen.
    - Values the program never inspects (row ids, prices, timestamps) are
      of an abstract type [value]. *)

From stdpp Require Import base strings list sorting gmap.

Set Default Proof Using "Type".

(** ** JavaScript helpers *)

(** Truthiness of a string: every string but the empty one. *)
Definition truthy (s : string) : bool :=
  match s with
  | EmptyString => false
  | String _ _ => true
  end.

(** [a || b] where [a] is [null] or an object: [null] is falsy, every
    object (an empty array too) is truthy. *)
Definition or_else {A : Type} (a : option A) (b : A) : A :=
  match a with
  | Some x => x
  | None => b
  end.

(** [Set.prototype.add]: a [Set] keeps its elements in insertion order and
    adding an element it already has changes nothing. *)
Definition Set_add {A : Type} `{EqDecision A} (s : list A) (x : A) : list A :=
  if decide (x ∈ s) then s else s ++ [x].

(** [new Set(iterable)]: the elements are added one by one, first to last.
    The list is the iteration (and spread) order of the set. *)
Definition Set_of {A : Type} `{EqDecision A} (l : list A) : list A :=
  foldl Set_add [] l.

(** [s.includes(search)]: [search] occurs in [s], at the start or further
    on. *)
Fixpoint includes (search s : string) : bool :=
  String.prefix search s ||
  match s with
  | EmptyString => false
  | String _ rest => includes search rest
  end.

(** ** Data model *)

(** The error object of a gateway response; only [message] is read. *)
Record PgError := { message : string }.

(** What awaiting a Supabase query gives: [{ data, error }], each possibly
    [null]. *)
Record Response (A : Type) := { data : option A; error : option PgError }.
Arguments data {A} _.
Arguments error {A} _.

Section Rows.
Context {value : Type}.

(** A row of the [products] table. *)
Record Product := {
  id : value;
  name : string;
  category : string;
  price : value;
  description : string;
  image : string;
  created_at : value
}.

(** A row of the [inquiries] table. *)
Record Inquiry := {
  inq_id : value;
  inq_product : string;
  inq_customer : string;
  inq_contact : string;
  inq_message : string;
  inq_status : string;
  inq_created_at : value
}.

(** The object the add-product form hands to [addProduct]: a product
    without the columns the backend assigns. *)
Record NewProduct := {
  new_name : string;
  new_category : string;
  new_price : value;
  new_description : string;
  new_image : string
}.

(** A call of one of the state setters of [App]. *)
Inductive Update :=
| SetView (page : string)
| SetProducts (l : list Product)
| SetInquiries (l : list Inquiry)
| SetIsAdmin (b : bool)
| SetLoading (b : bool).

(** What a run of the program does to the outside, in order. *)
Inductive Event :=
| EvState (u : Update)
| EvSelect (table : string)
| EvInsertProduct (row : NewProduct)
| EvInsertInquiry (row : gmap string string)
| EvDelete (table : string) (key : value)
| EvConsoleError (label msg : string)
| EvAlert (msg : string)
| EvConfirm (msg : string).

(** The state of the root component, with the initial values of its
    [useState] calls. *)
Record AppState := {
  view : string;
  products : list Product;
  inquiries : list Inquiry;
  isAdmin : bool;
  loading : bool
}.
End Rows.

Arguments Product : clear implicits.
Arguments Inquiry : clear implicits.
Arguments NewProduct : clear implicits.
Arguments Update : clear implicits.
Arguments Event : clear implicits.
Arguments AppState : clear implicits.

(** ** The outside world *)

(** The answers of the outside world.  [W] is whatever state the backend
    and the user have; each operation gives its answer and the next
    state.  The two selects are
    [from(t).select('*').order('created_at', { ascending: false })]. *)
Class Supabase (value W : Type) := {
  select_products : W → Response (list (Product value)) * W;
  select_inquiries : W → Response (list (Inquiry value)) * W;
  insert_product : NewProduct value → W → Response unit * W;
  insert_inquiry : gmap string string → W → Response unit * W;
  delete_product : value → W → Response unit * W;
  window_confirm : string → W → bool * W
}.

(** ** The monad of handlers *)

Section Monad.
Context {value W : Type}.

Record Sys := { app : AppState value; world : W }.

(** How a computation ends: with a value, or with a thrown error. *)
Inductive Completion (A : Type) :=
| Normal (a : A)
| Thrown (e : PgError).

Record Out (A : Type) := {
  completion : Completion A;
  final : Sys;
  trace : list (Event value)
}.

Definition Js (A : Type) : Type := Sys → Out A.
End Monad.

Arguments Sys : clear implicits.
Arguments Out : clear implicits.
Arguments Js : clear implicits.
Arguments Normal {A} _.
Arguments Thrown {A} _.
Arguments completion {value W A} _.
Arguments final {value W A} _.
Arguments trace {value W A} _.

Section MonadOps.
Context {value W : Type}.
#[local] Abbreviation Js := (Js value W).

#[export] Instance Js_ret : MRet Js :=
  λ A (a : A) s, {| completion := Normal a; final := s; trace := [] |}.

#[export] Instance Js_bind : MBind Js :=
  λ A B (f : A → Js B) (m : Js A) s,
    let o := m s in
    match completion o with
    | Normal a =>
        let o' := f a (final o) in
        {| completion := completion o';
           final := final o';
           trace := trace o ++ trace o' |}
    | Thrown e =>
        {| completion := Thrown e; final := final o; trace := trace o |}
    end.

(** [throw e] *)
Definition throw {A} (e : PgError) : Js A :=
  λ s, {| completion := Thrown e; final := s; trace := [] |}.

(** [try { m } catch (e) { h e }] *)
Definition try_catch {A} (m : Js A) (h : PgError → Js A) : Js A :=
  λ s,
    let o := m s in
    match completion o with
    | Normal _ => o
    | Thrown e =>
        let o' := h e (final o) in
        {| completion := completion o';
           final := final o';
           trace := trace o ++ trace o' |}
    end.

(** The value a computation ends with, when it does not throw. *)
Definition completion_value {A : Type} (o : Out value W A) : option A :=
  match completion o with
  | Normal a => Some a
  | Thrown _ => None
  end.

(** An effect on the outside that has no answer. *)
Definition emit (ev : Event value) : Js unit :=
  λ s, {| completion := Normal tt; final := s; trace := [ev] |}.

(** An effect on the outside with an answer: the event is written and
    the world gives the answer. *)
Definition ask {A} (ev : Event value) (op : W → A * W) : Js A :=
  λ s,
    let r := op (world s) in
    {| completion := Normal r.1;
       final := {| app := app s; world := r.2 |};
       trace := [ev] |}.

Definition apply_update (u : Update value) (a : AppState value) : AppState value :=
  match u with
  | SetView page =>
      {| view := page; products := products a; inquiries := inquiries a;
         isAdmin := isAdmin a; loading := loading a |}
  | SetProducts l =>
      {| view := view a; products := l; inquiries := inquiries a;
         isAdmin := isAdmin a; loading := loading a |}
  | SetInquiries l =>
      {| view := view a; products := products a; inquiries := l;
         isAdmin := isAdmin a; loading := loading a |}
  | SetIsAdmin b =>
      {| view := view a; products := products a; inquiries := inquiries a;
         isAdmin := b; loading := loading a |}
  | SetLoading b =>
      {| view := view a; products := products a; inquiries := inquiries a;
         isAdmin := isAdmin a; loading := b |}
  end.

(** A call of a state setter. *)
Definition set_state (u : Update value) : Js unit :=
  λ s,
    {| completion := Normal tt;
       final := {| app := apply_update u (app s); world := world s |};
       trace := [EvState u] |}.
End MonadOps.


(** ** The root component [App] *)

Module App.
Section WithWorld.
Context {value W : Type} `{!Supabase value W}.
#[local] Abbreviation Js := (Js value W).

(** The initial values of the five [useState] calls. *)
Definition init : AppState value :=
  {| view := "home"; products := []; inquiries := [];
     isAdmin := false; loading := true |}.

Definition setView (page : string) : Js unit := set_state (SetView page).
Definition setProducts (l : list (Product value)) : Js unit := set_state (SetProducts l).
Definition setInquiries (l : list (Inquiry value)) : Js unit := set_state (SetInquiries l).
Definition setIsAdmin (b : bool) : Js unit := set_state (SetIsAdmin b).
Definition setLoading (b : bool) : Js unit := set_state (SetLoading b).

(** [fetchData] (lines 14-42): a state setter is called only in the
    [else] branch of [if (error)]; the error branch logs and sets
    nothing. *)
Definition fetchData : Js unit :=
  setLoading true;;
  r ← ask (EvSelect "products") select_products;
  match error r with
  | Some prodError => emit (EvConsoleError "Error fetching products:" (message prodError))
  | None => setProducts (or_else (data r) [])
  end;;
  r ← ask (EvSelect "inquiries") select_inquiries;
  match error r with
  | Some inqError => emit (EvConsoleError "Error fetching inquiries:" (message inqError))
  | None => setInquiries (or_else (data r) [])
  end;;
  setLoading false.

Definition navigate (page : string) : Js unit := setView page.

(** *** Database actions *)

(** [addProduct] (lines 53-67).  [fetchData()] is not awaited; it
    throws nothing. *)
Definition addProduct (product : NewProduct value) : Js unit :=
  try_catch
    (r ← ask (EvInsertProduct product) (insert_product product);
     match error r with
     | Some e => throw e
     | None => mret tt
     end;;
     emit (EvAlert "Product Added Successfully!");;
     fetchData)
    (λ e, emit (EvAlert ("Error adding product: " +:+ message e))).

(** [deleteProduct] (lines 69-83) *)
Definition deleteProduct (key : value) : Js unit :=
  ok ← ask (EvConfirm "Are you sure you want to delete this item?")
           (window_confirm "Are you sure you want to delete this item?");
  if ok : bool then
    r ← ask (EvDelete "products" key) (delete_product key);
    match error r with
    | Some e => emit (EvAlert ("Error deleting: " +:+ message e))
    | None => fetchData
    end
  else mret tt.

(** [addInquiry] (lines 85-98).  The row is
    [{ ...inquiry, status: 'New' }]: the properties of [inquiry], then
    [status], which replaces a [status] that [inquiry] has. *)
Definition addInquiry (inquiry : gmap string string) : Js unit :=
  try_catch
    (let row := <["status" := "New"]> inquiry in
     r ← ask (EvInsertInquiry row) (insert_inquiry row);
     match error r with
     | Some e => throw e
     | None => mret tt
     end;;
     emit (EvAlert "Inquiry Sent! The artisan will contact you shortly."))
    (λ e, emit (EvAlert ("Error sending inquiry: " +:+ message e))).

(** *** Callbacks handed to the sub-components and the navigation bar *)

(** The [onLogin] of [<AdminLogin>]. *)
Definition onLogin : Js unit :=
  setIsAdmin true;;
  navigate "admin-dashboard".

(** The [onLogout] of [<AdminDashboard>]. *)
Definition onLogout : Js unit :=
  setIsAdmin false;;
  setView "home";;
  emit (EvAlert "Logged out successfully").

(** The third button of the navigation bar. *)
Definition onAdminClick : Js unit :=
  λ s, navigate (if isAdmin (app s) then "admin-dashboard" else "admin-login") s.

(** *** Renderer: the main content switcher *)

Inductive Screen :=
| Spinner
| HomeView (products : list (Product value))
| CatalogView (products : list (Product value))
| AdminLogin
| AdminDashboard (products : list (Product value)) (inquiries : list (Inquiry value)).

(** [c && <X/>] inside a fragment: the element when [c] holds, nothing
    otherwise. *)
Definition when (c : bool) (x : Screen) : list Screen :=
  if c then [x] else [].

(** The content of [<main>] (lines 126-148). *)
Definition main (a : AppState value) : list Screen :=
  if loading a then [Spinner]
  else
    when (String.eqb (view a) "home") (HomeView (products a)) ++
    when (String.eqb (view a) "catalog") (CatalogView (products a)) ++
    when (String.eqb (view a) "admin-login") AdminLogin ++
    when (String.eqb (view a) "admin-dashboard")
         (AdminDashboard (products a) (inquiries a)).

Definition is_spinner (x : Screen) : bool :=
  match x with Spinner => true | _ => false end.

Definition is_catalog (x : Screen) : bool :=
  match x with CatalogView _ => true | _ => false end.

Definition is_login (x : Screen) : bool :=
  match x with AdminLogin => true | _ => false end.

Definition is_dashboard (x : Screen) : bool :=
  match x with AdminDashboard _ _ => true | _ => false end.

(** *** Renderer: the navigation bar (lines 104-122) *)

(** Which of the three buttons carries the highlight class, and the
    label of the third. *)
Record NavBar := {
  home_active : bool;
  catalog_active : bool;
  admin_active : bool;
  admin_label : string
}.

Definition navbar (a : AppState value) : NavBar :=
  {| home_active := String.eqb (view a) "home";
     catalog_active := String.eqb (view a) "catalog";
     admin_active := includes "admin" (view a);
     admin_label := if isAdmin a then "Dashboard" else "Admin" |}.

(** *** The effect of the component *)

(** [useEffect(effect, deps)]: React runs the effect after the first
    render ([prev] is [None]) and after a later render when [deps] is
    not what it was at the render before ([prev]). *)
Definition useEffect {D : Type} `{EqDecision D}
    (effect : Js unit) (deps : list D) (prev : option (list D)) : Js unit :=
  match prev with
  | None => effect
  | Some d => if decide (d = deps) then mret tt else effect
  end.

(** [useEffect(() => { fetchData(); }, [])] *)
Definition effects (prev : option (list Empty_set)) : Js unit :=
  useEffect fetchData [] prev.
End WithWorld.
End App.

(** ** [HomeView] *)

(** [l.slice(0, n)] *)
Definition slice0 {A : Type} (n : nat) (l : list A) : list A := take n l.

Module HomeView.
Section WithValue.
Context {value : Type}.

(** The grid under "Featured Items": read-only product cards, or the
    notice "No products yet...". *)
Inductive Featured :=
| Cards (l : list (Product value))
| NoProductsYet.

(** Lines 180-186. *)
Definition featured (products : list (Product value)) : Featured :=
  if 0 <? length products then Cards (slice0 4 products) else NoProductsYet.
End WithValue.
Arguments Featured : clear implicits.
End HomeView.

(** ** [CatalogView] *)

Module CatalogView.
Section WithValue.
Context {value : Type}.

(** The initial value of the [filter] state. *)
Definition init : string := "All".

(** [['All', ...new Set(products.map(p => p.category))]] (line 195) *)
Definition categories (products : list (Product value)) : list string :=
  "All" :: Set_of (map category products).

(** Lines 197-199. *)
Definition filteredProducts (filter : string) (products : list (Product value))
    : list (Product value) :=
  if String.eqb filter "All" then products
  else List.filter (λ p, String.eqb (category p) filter) products.

(** [filteredProducts.length === 0 && <div>No products found...</div>]
    (line 229) *)
Definition empty_notice (filter : string) (products : list (Product value)) : bool :=
  length (filteredProducts filter products) =? 0.

(** The category buttons (lines 207-219): the text of each and whether
    it is drawn as the selected one, [filter === cat]. *)
Definition buttons (filter : string) (products : list (Product value))
    : list (string * bool) :=
  map (λ cat, (cat, String.eqb filter cat)) (categories products).
End WithValue.
End CatalogView.

(** ** [ProductCard] *)

Module ProductCard.
(** The fields of the inquiry form, as [FormData] gives them. *)
Record FormData := {
  fd_name : string;
  fd_contact : string;
  fd_message : string
}.

Section WithWorld.
Context {value W : Type}.

(** The [onSubmit] of the inquiry form.  The result is the next value
    of the [isOpen] state. *)
Definition onSubmit (product : Product value)
    (onInquire : gmap string string → Js value W unit)
    (formData : FormData) : Js value W bool :=
  onInquire {[ "product" := name product;
               "customer" := fd_name formData;
               "contact" := fd_contact formData;
               "message" := fd_message formData ]};;
  mret false.
End WithWorld.
End ProductCard.

(** ** [AdminLogin] *)

Module AdminLogin.
(** The two pieces of state of the component. *)
Record State := { pass : string; error_text : string }.

Definition init : State := {| pass := ""; error_text := "" |}.

Definition setError (e : string) (st : State) : State :=
  {| pass := pass st; error_text := e |}.

(** [{error && <p>{error}</p>}] *)
Definition inline_error (st : State) : option string :=
  if truthy (error_text st) then Some (error_text st) else None.

Section WithWorld.
Context {value W : Type}.

(** [handleLogin] (lines 315-322).  The result is the next state of the
    component. *)
Definition handleLogin (onLogin : Js value W unit) (st : State) : Js value W State :=
  if String.eqb (pass st) "sk234f90" then
    onLogin;; mret st
  else
    mret (setError "Invalid Password (Hint: admin)" st).
End WithWorld.
End AdminLogin.

(** ** [AdminDashboard] *)

Module AdminDashboard.
(** The fields of the add-product form, as [FormData] gives them. *)
Record FormData := {
  fd_name : string;
  fd_category : string;
  fd_price : string;
  fd_description : string;
  fd_image : string
}.

Definition placeholder : string :=
  "https://images.unsplash.com/photo-1513519245088-0e12902e5a38?auto=format&fit=crop&q=80&w=500".

Section WithWorld.
Context {value W : Type}.
(** JavaScript's [Number(string)]. *)
Variable Number : string → value.

(** The object built in the [onSubmit] of the add-product form. *)
Definition submitted (formData : FormData) : NewProduct value :=
  let imageFile := fd_image formData in
  {| new_name := fd_name formData;
     new_category := fd_category formData;
     new_price := Number (fd_price formData);
     new_description := fd_description formData;
     new_image := if truthy imageFile then "/" +:+ imageFile else placeholder |}.

(** The [onSubmit] of the add-product form.  The result is the next
    value of the [isAddOpen] state. *)
Definition onSubmit (onAddProduct : NewProduct value → Js value W unit)
    (formData : FormData) : Js value W bool :=
  onAddProduct (submitted formData);;
  mret false.
End WithWorld.
End AdminDashboard.

(** ** A session: the mount of [App], then user actions *)

Module Session.
Section WithWorld.
Context {value W : Type} `{!Supabase value W}.
Variable Number : string → value.

(** The user actions that reach a handler of [App]. *)
Inductive Action :=
| ClickHome
| ClickCatalog
| ClickAdmin
| SubmitLogin (password : string)
| ClickLogout
| SubmitProduct (formData : AdminDashboard.FormData)
| ClickDelete (key : value)
| SubmitInquiry (product : Product value) (formData : ProductCard.FormData).

(** The handler an action runs; the state of the sub-component that the
    handler gives back is dropped. *)
Definition handle (a : Action) : Js value W unit :=
  match a with
  | ClickHome => App.navigate "home"
  | ClickCatalog => App.navigate "catalog"
  | ClickAdmin => App.onAdminClick
  | SubmitLogin password =>
      AdminLogin.handleLogin App.onLogin
        {| AdminLogin.pass := password; AdminLogin.error_text := "" |};;
      mret tt
  | ClickLogout => App.onLogout
  | SubmitProduct formData =>
      AdminDashboard.onSubmit Number App.addProduct formData;; mret tt
  | ClickDelete key => App.deleteProduct key
  | SubmitInquiry product formData =>
      ProductCard.onSubmit product App.addInquiry formData;; mret tt
  end.

(** The handlers alone, one after the other. *)
Fixpoint handlers (acts : list Action) : Js value W unit :=
  match acts with
  | [] => mret tt
  | a :: rest => handle a;; handlers rest
  end.

(** After the mount: each action is handled, [App] renders again and
    React looks at its effect, whose dependencies were [[]] at the
    render before. *)
Fixpoint renders (acts : list Action) : Js value W unit :=
  match acts with
  | [] => mret tt
  | a :: rest => handle a;; App.effects (Some []);; renders rest
  end.

(** The first render, whose effect has no render before it, then the
    actions. *)
Definition run (acts : list Action) : Js value W unit :=
  App.effects None;; renders acts.

(** Whether the page offers the action.  The navigation bar is drawn
    always; [<AdminLogin>] carries the login form; [<AdminDashboard>]
    carries the logout button, the add-product form and the delete
    buttons; the cards of [<CatalogView>] carry the inquiry form (those of
    [<HomeView>] are [readOnly]).  The state of the sub-components (open
    modal, selected tab) narrows this further and is left out. *)
Definition enabled (a : Action) (st : AppState value) : bool :=
  match a with
  | ClickHome | ClickCatalog | ClickAdmin => true
  | SubmitLogin _ => existsb App.is_login (App.main st)
  | ClickLogout | SubmitProduct _ | ClickDelete _ =>
      existsb App.is_dashboard (App.main st)
  | SubmitInquiry _ _ => existsb App.is_catalog (App.main st)
  end.

(** An action the page does not offer cannot be taken: nothing happens. *)
Definition step (a : Action) : Js value W unit :=
  λ s, (if enabled a (app s) then handle a else mret tt) s.

Fixpoint steps (acts : list Action) : Js value W unit :=
  match acts with
  | [] => mret tt
  | a :: rest => step a;; steps rest
  end.

(** The mount, then the actions the page offers. *)
Definition play (acts : list Action) : Js value W unit :=
  App.fetchData;; steps acts.

(** The actions that send a write to the gateway, and those that are
    followed by a refresh. *)
Definition writes (a : Action) : bool :=
  match a with
  | SubmitProduct _ | ClickDelete _ | SubmitInquiry _ _ => true
  | _ => false
  end.

Definition refreshes (a : Action) : bool :=
  match a with
  | SubmitProduct _ | ClickDelete _ => true
  | _ => false
  end.

(** A login with the password. *)
Definition is_password_login (a : Action) : bool :=
  match a with
  | SubmitLogin password => String.eqb password "sk234f90"
  | _ => false
  end.
End WithWorld.
End Session.

(** ** Reading a trace *)

Section Traces.
Context {value : Type}.

(** A request to the gateway. *)
Definition is_gateway (ev : Event value) : bool :=
  match ev with
  | EvSelect _ | EvInsertProduct _ | EvInsertInquiry _ | EvDelete _ _ => true
  | _ => false
  end.

(** A call of a state setter of [App]. *)
Definition is_state (ev : Event value) : bool :=
  match ev with
  | EvState _ => true
  | _ => false
  end.

Definition is_select (table : string) (ev : Event value) : bool :=
  match ev with
  | EvSelect t => String.eqb t table
  | _ => false
  end.

(** How many times a table is fetched. *)
Definition count_select (table : string) (tr : list (Event value)) : nat :=
  length (List.filter (is_select table) tr).

Definition is_set_loading (ev : Event value) : bool :=
  match ev with
  | EvState (SetLoading _) => true
  | _ => false
  end.

(** A request that changes a table. *)
Definition is_write (ev : Event value) : bool :=
  match ev with
  | EvInsertProduct _ | EvInsertInquiry _ | EvDelete _ _ => true
  | _ => false
  end.

(** A request that changes the [products] table. *)
Definition is_product_write (ev : Event value) : bool :=
  match ev with
  | EvInsertProduct _ | EvDelete _ _ => true
  | _ => false
  end.

(** A blocking dialog, [alert] or [confirm]. *)
Definition is_dialog (ev : Event value) : bool :=
  match ev with
  | EvAlert _ | EvConfirm _ => true
  | _ => false
  end.

(** A call of [setView] or [setIsAdmin]. *)
Definition is_navigation (ev : Event value) : bool :=
  match ev with
  | EvState (SetView _) | EvState (SetIsAdmin _) => true
  | _ => false
  end.
End Traces.

(** The four views the renderer knows. *)
Definition known_views : list string :=
  ["home"; "catalog"; "admin-login"; "admin-dashboard"].

(** ** The distinct values of a list, as the specification words it *)

(** The distinct values in first-occurrence order: a value stays where it
    occurs first and its later occurrences are dropped. *)
Fixpoint distinct_in_order {A : Type} `{EqDecision A} (l : list A) : list A :=
  match l with
  | [] => []
  | x :: l' => x :: filter (λ y, y ≠ x) (distinct_in_order l')
  end.

(** ** A scripted world, for examples *)

Module Scripted.
(** The answers are fixed in advance and the world does not change.
    Row ids, prices and timestamps are kept as text. *)
Record World := {
  on_select_products : Response (list (Product string));
  on_select_inquiries : Response (list (Inquiry string));
  on_insert_product : Response unit;
  on_insert_inquiry : Response unit;
  on_delete : Response unit;
  on_confirm : bool
}.

#[export] Instance supabase : Supabase string World := {
  select_products w := (on_select_products w, w);
  select_inquiries w := (on_select_inquiries w, w);
  insert_product _ w := (on_insert_product w, w);
  insert_inquiry _ w := (on_insert_inquiry w, w);
  delete_product _ w := (on_delete w, w);
  window_confirm _ w := (on_confirm w, w)
}.

Definition success {A : Type} (x : A) : Response A :=
  {| data := Some x; error := None |}.

Definition failure {A : Type} (msg : string) : Response A :=
  {| data := None; error := Some {| message := msg |} |}.

Definition product (key cat : string) : Product string :=
  {| id := key; name := "Item " +:+ key; category := cat; price := "100";
     description := ""; image := "/x.jpg"; created_at := key |}.

Definition bowl : Product string :=
  {| id := "1"; name := "Clay Bowl"; category := "Pottery"; price := "450";
     description := "Hand-thrown bowl"; image := "/bowl.jpg";
     created_at := "2024-01-02T10:00:00Z" |}.

Definition rug : Product string :=
  {| id := "2"; name := "Wool Rug"; category := "Weaving"; price := "2500";
     description := "Flat-woven rug"; image := "/rug.jpg";
     created_at := "2024-01-01T10:00:00Z" |}.

(** Everything succeeds, the user confirms, both tables are empty. *)
Definition calm : World :=
  {| on_select_products := success [];
     on_select_inquiries := success [];
     on_insert_product := success ();
     on_insert_inquiry := success ();
     on_delete := success ();
     on_confirm := true |}.

(** The fetch of the products fails, the fetch of the inquiries gives
    no row. *)
Definition products_down : World :=
  {| on_select_products := failure "connection refused";
     on_select_inquiries := success [];
     on_insert_product := success ();
     on_insert_inquiry := success ();
     on_delete := success ();
     on_confirm := true |}.

(** A state of [App] after a first load that brought one product. *)
Definition loaded : AppState string :=
  {| view := "admin-dashboard"; products := [bowl]; inquiries := [];
     isAdmin := true; loading := false |}.

(** Two products in one category and one in another. *)
Definition snapshot : list (Product string) :=
  [bowl; product "3" "Pottery"; rug].

(** A snapshot in which a product has the category ["All"]. *)
Definition snapshot_with_All : list (Product string) :=
  [product "7" "All"; bowl].

(** Five products, the newest first; [created_at] is the key. *)
Definition five : list (Product string) :=
  (λ key, product key "Pottery") <$> ["5"; "4"; "3"; "2"; "1"].

(** [p] was created no earlier than [q]. *)
Definition newer (p q : Product string) : Prop :=
  String.leb (created_at q) (created_at p) = true.

(** The inquiry form, filled in. *)
Definition asha : ProductCard.FormData :=
  {| ProductCard.fd_name := "Asha";
     ProductCard.fd_contact := "555-0100";
     ProductCard.fd_message := "" |}.

(** [Number] on the text of a price: the text is kept. *)
Definition Number (text : string) : string := text.



(** The add-product form, filled in. *)
Definition clay_form : AdminDashboard.FormData :=
  {| AdminDashboard.fd_name := "Clay Bowl";
     AdminDashboard.fd_category := "Pottery";
     AdminDashboard.fd_price := "450";
     AdminDashboard.fd_description := "Hand-thrown bowl";
     AdminDashboard.fd_image := "bowl.jpg" |}.

(** A visitor who sends an inquiry, tries the hint of the login form as
    password and then tries what only the dashboard offers. *)
Definition visitor : list (@Session.Action string) :=
  [Session.ClickCatalog;
   Session.SubmitInquiry bowl asha;
   Session.ClickAdmin;
   Session.SubmitLogin "admin";
   Session.ClickDelete "1";
   Session.SubmitProduct clay_form;
   Session.ClickLogout].

(** The admin logs in. *)
Definition admin_login : list (@Session.Action string) :=
  [Session.ClickAdmin; Session.SubmitLogin "sk234f90"].

End Scripted.

(** * Properties *)

(** Unfolds the operations of the monad and of the state setters. *)
Ltac js_unfold :=
  unfold mbind, mret, Js_bind, Js_ret, ask, emit, throw, try_catch,
    App.navigate, App.setView, App.setProducts, App.setInquiries,
    App.setIsAdmin, App.setLoading, set_state in *.

(** ** The refresh, [fetchData] *)

Section Refresh.
Context {value W : Type} `{!Supabase value W}.
Implicit Types (s : Sys value W) (a : AppState value).

(** What a refresh does, whatever the gateway answers. *)
Lemma fetchData_run s :
  let p := select_products (world s) in
  let i := select_inquiries p.2 in
  App.fetchData s =
  {| completion := Normal ();
     final :=
       {| app :=
            {| view := view (app s);
               products :=
                 match error p.1 with
                 | Some _ => products (app s)
                 | None => or_else (data p.1) []
                 end;
               inquiries :=
                 match error i.1 with
                 | Some _ => inquiries (app s)
                 | None => or_else (data i.1) []
                 end;
               isAdmin := isAdmin (app s);
               loading := false |};
          world := i.2 |};
     trace :=
       [EvState (SetLoading true);
        EvSelect "products";
        match error p.1 with
        | Some e => EvConsoleError "Error fetching products:" (message e)
        | None => EvState (SetProducts (or_else (data p.1) []))
        end;
        EvSelect "inquiries";
        match error i.1 with
        | Some e => EvConsoleError "Error fetching inquiries:" (message e)
        | None => EvState (SetInquiries (or_else (data i.1) []))
        end;
        EvState (SetLoading false)] |}.
Proof.
  cbn zeta.
  destruct (select_products (world s)) as [[dp ep] w1] eqn:Hp.
  destruct (select_inquiries w1) as [[di ei] w2] eqn:Hi.
  unfold App.fetchData. js_unfold. cbn. rewrite Hp. cbn.
  destruct ep; cbn; rewrite Hi; destruct ei; reflexivity.
Qed.

(** [C1], as amended: a refresh asks the gateway for each collection
    once.  When the fetch of a collection gives an error, the error is
    logged and the collection keeps the value it had before the call;
    when it gives no error, the collection becomes the fetched data
    (the empty sequence, when the answer has no data).  Each collection
    is settled by its own fetch alone. *)
Theorem fetchData_fetch_error s :
  let p := (select_products (world s)).1 in
  let i := (select_inquiries (select_products (world s)).2).1 in
  let o := App.fetchData s in
  match error p with
  | Some e =>
      EvConsoleError "Error fetching products:" (message e) ∈ trace o ∧
      products (app (final o)) = products (app s)
  | None => products (app (final o)) = or_else (data p) []
  end ∧
  match error i with
  | Some e =>
      EvConsoleError "Error fetching inquiries:" (message e) ∈ trace o ∧
      inquiries (app (final o)) = inquiries (app s)
  | None => inquiries (app (final o)) = or_else (data i) []
  end ∧
  count_select "products" (trace o) = 1 ∧
  count_select "inquiries" (trace o) = 1.
Proof.
  cbn zeta. rewrite fetchData_run. cbn [trace final app products inquiries].
  destruct (error (select_products (world s)).1) as [e1|];
    destruct (error (select_inquiries (select_products (world s)).2).1) as [e2|];
    repeat split; try reflexivity;
    repeat first [ apply list_elem_of_here | apply list_elem_of_further ].
Qed.

(** The monad laws the session needs. *)
Lemma ret_bind {A B} (x : A) (f : A → Js value W B) s :
  (mret x ≫= f) s = f x s.
Proof. js_unfold. cbn. by destruct (f x s). Qed.

Lemma bind_ext {A B} (m : Js value W A) (f g : A → Js value W B) s :
  (∀ x s', f x s' = g x s') → (m ≫= f) s = (m ≫= g) s.
Proof.
  intros Hfg. js_unfold. destruct (completion (m s)); [|done].
  by rewrite Hfg.
Qed.

(** The effect of [App] runs after the first render and after no other:
    its list of dependencies is empty at every render. *)
Lemma effects_first s : App.effects None s = App.fetchData s.
Proof. reflexivity. Qed.

Lemma effects_later (d : list Empty_set) s :
  App.effects (Some d) s = (mret () : Js value W ()) s.
Proof.
  unfold App.effects, App.useEffect. case_decide; [done|].
  destruct d as [|[] ?]; done.
Qed.

Variable Number : string → value.

Lemma renders_handlers acts s :
  Session.renders Number acts s = Session.handlers Number acts s.
Proof.
  revert s. induction acts as [|act acts IH]; intros s; [done|].
  cbn [Session.renders Session.handlers].
  apply bind_ext. intros _ s'.
  rewrite <- IH. rewrite <- (ret_bind () (λ _, Session.renders Number acts) s').
  apply bind_ext. done.
Qed.

(** [C8]: the loading flag is [true] in the initial state; while it is
    [true] the main content is the spinner and no view; a refresh sets
    it to [true] first and to [false] last, after one fetch of each
    collection and with no other change of the flag in between, for
    every answer of the gateway; the effect of [App] runs the refresh
    after the first render and after no later one, so that a session is
    one refresh followed by the handlers of the user's actions. *)
Theorem loading_flag :
  loading (App.init : AppState value) = true ∧
  (∀ a, loading a = true → App.main a = [App.Spinner]) ∧
  (∀ s,
     let o := App.fetchData s in
     completion o = Normal () ∧
     loading (app (final o)) = false ∧
     ∃ mid,
       trace o = EvState (SetLoading true) :: mid ++ [EvState (SetLoading false)] ∧
       Forall (λ ev, is_set_loading ev = false) mid ∧
       count_select "products" mid = 1 ∧
       count_select "inquiries" mid = 1) ∧
  (∀ s, App.effects None s = App.fetchData s) ∧
  (∀ d s, App.effects (Some d) s = (mret () : Js value W ()) s) ∧
  (∀ acts s,
     Session.run Number acts s =
     (App.fetchData;; Session.handlers Number acts) s).
Proof.
  split; [reflexivity|].
  split; [intros a Ha; unfold App.main; by rewrite Ha|].
  split.
  { intros s. cbn zeta. rewrite fetchData_run.
    cbn [completion trace final app loading].
    do 2 (split; [reflexivity|]).
    eexists [_; _; _; _]. split; [reflexivity|].
    destruct (error (select_products (world s)).1);
      destruct (error (select_inquiries (select_products (world s)).2).1);
      (split; [repeat constructor | split; reflexivity]). }
  split; [apply effects_first|].
  split; [apply effects_later|].
  intros acts s. unfold Session.run.
  change (App.effects None) with (App.fetchData (value:=value) (W:=W)).
  apply bind_ext. intros _ s'.
  apply renders_handlers.
Qed.
End Refresh.

(** ** The database actions *)

Section Actions.
Context {value W : Type} `{!Supabase value W}.
Implicit Types (s : Sys value W) (a : AppState value).

(** [C2]: [deleteProduct] asks the user first.  When the user declines,
    nothing else happens: no request goes to the gateway and the state
    of [App] is as before.  When the user confirms, the delete is sent;
    if it gives no error a refresh follows, and if it gives an error
    the message is shown in an alert and the state of [App] is as
    before. *)
Theorem deleteProduct_cases (key : value) s :
  let q := "Are you sure you want to delete this item?" in
  let c := window_confirm q (world s) in
  let d := delete_product key c.2 in
  let o := App.deleteProduct key s in
  if c.1 then
    match error d.1 with
    | None =>
        let r := App.fetchData {| app := app s; world := d.2 |} in
        trace o = [EvConfirm q; EvDelete "products" key] ++ trace r ∧
        final o = final r
    | Some e =>
        trace o = [EvConfirm q; EvDelete "products" key;
                   EvAlert ("Error deleting: " +:+ message e)] ∧
        app (final o) = app s
    end
  else
    trace o = [EvConfirm q] ∧
    Forall (λ ev, is_gateway ev = false) (trace o) ∧
    app (final o) = app s.
Proof.
  cbn zeta. unfold App.deleteProduct. js_unfold. cbn.
  destruct (window_confirm _ (world s)) as [[|] w1]; cbn.
  - destruct (delete_product key w1) as [[dd [e|]] w2]; cbn; [done|].
    by destruct (App.fetchData _).
  - repeat split. by repeat constructor.
Qed.

(** [C7]: [addProduct] sends the insert.  If it gives no error, the
    success is shown in an alert and a refresh follows; if it gives an
    error, the message is shown in an alert and the state of [App], the
    two collections with it, is as before.  The handler does not throw
    in either case. *)
Theorem addProduct_cases (product : NewProduct value) s :
  let ins := insert_product product (world s) in
  let o := App.addProduct product s in
  completion o = Normal () ∧
  match error ins.1 with
  | None =>
      let r := App.fetchData {| app := app s; world := ins.2 |} in
      trace o = [EvInsertProduct product;
                 EvAlert "Product Added Successfully!"] ++ trace r ∧
      final o = final r
  | Some e =>
      trace o = [EvInsertProduct product;
                 EvAlert ("Error adding product: " +:+ message e)] ∧
      products (app (final o)) = products (app s) ∧
      inquiries (app (final o)) = inquiries (app s) ∧
      app (final o) = app s
  end.
Proof.
  cbn zeta. unfold App.addProduct. js_unfold. cbn.
  destruct (insert_product product (world s)) as [[di [e|]] w1]; cbn; [done|].
  rewrite fetchData_run. done.
Qed.

(** What [addInquiry] does, for every object it is given. *)
Lemma addInquiry_run (inquiry : gmap string string) s :
  let row := <["status" := "New"]> inquiry in
  let ins := insert_inquiry row (world s) in
  App.addInquiry inquiry s =
  {| completion := Normal ();
     final := {| app := app s; world := ins.2 |};
     trace :=
       [EvInsertInquiry row;
        EvAlert
          match error ins.1 with
          | None => "Inquiry Sent! The artisan will contact you shortly."
          | Some e => "Error sending inquiry: " +:+ message e
          end] |}.
Proof.
  cbn zeta. unfold App.addInquiry. js_unfold. cbn.
  by destruct (insert_inquiry _ (world s)) as [[di [e|]] w1].
Qed.

(** [C3]: submitting the inquiry form of a product card sends to the
    gateway one row, with the name of the product, the three fields of
    the form and the status ["New"], shows one alert and closes the
    modal; no state of [App] is set and no collection is fetched.
    Whatever object [addInquiry] is given, the row it sends has the
    status ["New"], and [addInquiry] sends nothing else to the gateway
    and sets no state. *)
Theorem inquiry_submission (product : Product value)
    (formData : ProductCard.FormData) s :
  let row : gmap string string :=
    {[ "product" := name product;
       "customer" := ProductCard.fd_name formData;
       "contact" := ProductCard.fd_contact formData;
       "message" := ProductCard.fd_message formData;
       "status" := "New" ]} in
  let ins := insert_inquiry row (world s) in
  let o := ProductCard.onSubmit product App.addInquiry formData s in
  trace o =
    [EvInsertInquiry row;
     EvAlert
       match error ins.1 with
       | None => "Inquiry Sent! The artisan will contact you shortly."
       | Some e => "Error sending inquiry: " +:+ message e
       end] ∧
  completion o = Normal false ∧
  app (final o) = app s ∧
  count_select "products" (trace o) = 0 ∧
  count_select "inquiries" (trace o) = 0 ∧
  ∀ (inquiry : gmap string string) s',
    let row' := <["status" := "New"]> inquiry in
    row' !! "status" = Some "New" ∧
    (∀ k, k ≠ "status" → row' !! k = inquiry !! k) ∧
    ∃ msg,
      trace (App.addInquiry inquiry s') = [EvInsertInquiry row'; EvAlert msg] ∧
      app (final (App.addInquiry inquiry s')) = app s'.
Proof.
  cbn zeta. unfold ProductCard.onSubmit, mbind, Js_bind.
  rewrite addInquiry_run.
  cbn [completion trace final app mret Js_ret].
  repeat split.
  - apply lookup_insert_eq.
  - intros k Hk. by apply lookup_insert_ne.
  - rewrite addInquiry_run. cbn [trace final app]. by eexists.
Qed.

(** [C5]: a login with the password ["sk234f90"] sets the admin flag
    and moves the view to ["admin-dashboard"]; a login with any other
    password sets no state of [App], so that the flag and the view are
    as before, and leaves the inline error message
    ["Invalid Password (Hint: admin)"] on the form. *)
Theorem handleLogin_cases (st : AdminLogin.State) s :
  let o := AdminLogin.handleLogin App.onLogin st s in
  if decide (AdminLogin.pass st = "sk234f90") then
    isAdmin (app (final o)) = true ∧
    view (app (final o)) = "admin-dashboard"
  else
    trace o = [] ∧
    isAdmin (app (final o)) = isAdmin (app s) ∧
    view (app (final o)) = view (app s) ∧
    final o = s ∧
    ∃ st',
      completion o = Normal st' ∧
      AdminLogin.inline_error st' = Some "Invalid Password (Hint: admin)".
Proof.
  cbn zeta. unfold AdminLogin.handleLogin.
  case_decide as Hpass.
  - rewrite Hpass. done.
  - apply String.eqb_neq in Hpass. rewrite Hpass.
    repeat split. by eexists.
Qed.

(** [C6]: after a logout the admin flag is [false] and the view is
    ["home"], whatever they were; the user is told in an alert. *)
Theorem onLogout_resets s :
  let o := App.onLogout s in
  isAdmin (app (final o)) = false ∧
  view (app (final o)) = "home" ∧
  EvAlert "Logged out successfully" ∈ trace o.
Proof.
  cbn zeta. unfold App.onLogout. js_unfold. cbn.
  repeat split. set_solver.
Qed.

(** [C10]: the product that the add-product form hands to its
    [onAddProduct] has, as image, the placeholder URL when the image
    field is empty and the text of the field after a slash when it is
    not; the other fields are those of the form. *)
Theorem add_product_form_image (Number : string → value)
    (onAddProduct : NewProduct value → Js value W ())
    (formData : AdminDashboard.FormData) s :
  ∃ product,
    AdminDashboard.onSubmit Number onAddProduct formData s =
      (onAddProduct product;; mret false) s ∧
    new_image product =
      (if decide (AdminDashboard.fd_image formData = "")
       then "https://images.unsplash.com/photo-1513519245088-0e12902e5a38?auto=format&fit=crop&q=80&w=500"
       else "/" +:+ AdminDashboard.fd_image formData) ∧
    new_name product = AdminDashboard.fd_name formData ∧
    new_category product = AdminDashboard.fd_category formData ∧
    new_price product = Number (AdminDashboard.fd_price formData) ∧
    new_description product = AdminDashboard.fd_description formData.
Proof.
  eexists. split; [reflexivity|].
  repeat split. cbn.
  by destruct (AdminDashboard.fd_image formData).
Qed.
End Actions.

(** ** The views *)

Section DistinctValues.
Context {A : Type} `{EqDecision A}.
Implicit Types (l acc : list A).

Lemma elem_of_distinct_in_order l x : x ∈ distinct_in_order l ↔ x ∈ l.
Proof.
  induction l as [|y l IH]; [done|]. cbn [distinct_in_order].
  rewrite !elem_of_cons, list_elem_of_filter, IH.
  destruct (decide (x = y)); tauto.
Qed.

Lemma NoDup_distinct_in_order l : NoDup (distinct_in_order l).
Proof.
  induction l as [|y l IH]; cbn; [constructor|].
  apply NoDup_cons. split.
  - rewrite list_elem_of_filter. tauto.
  - by apply NoDup_filter.
Qed.

(** The set grown from [acc] has, after [acc], the distinct values of
    the list that [acc] does not have. *)
Lemma foldl_Set_add l acc :
  foldl Set_add acc l = acc ++ filter (λ y, y ∉ acc) (distinct_in_order l).
Proof.
  revert acc. induction l as [|x l IH]; intros acc.
  { cbn. by rewrite app_nil_r. }
  cbn [foldl distinct_in_order].
  rewrite IH. unfold Set_add. case_decide as Hx.
  - rewrite filter_cons_False by tauto.
    f_equal. rewrite list_filter_filter.
    apply list_filter_iff. intros y. split; [|tauto].
    intros Hy. split; [done|]. by intros ->.
  - rewrite filter_cons_True by done.
    rewrite <- app_assoc. cbn [app]. do 2 f_equal.
    rewrite list_filter_filter.
    apply list_filter_iff. intros y.
    rewrite elem_of_app, list_elem_of_singleton. tauto.
Qed.

(** [new Set(l)] lists the distinct values of [l] in first-occurrence
    order. *)
Lemma Set_of_distinct l : Set_of l = distinct_in_order l.
Proof.
  unfold Set_of. rewrite foldl_Set_add.
  change (filter (λ y, y ∉ []) (distinct_in_order l) = distinct_in_order l).
  induction (distinct_in_order l) as [|y k IH]; [done|].
  rewrite filter_cons_True by apply not_elem_of_nil. by rewrite IH.
Qed.
End DistinctValues.

Section Views.
Context {value : Type}.
Implicit Types (products : list (Product value)).

(** The two ways of filtering, by a boolean test and by a decidable
    proposition, agree. *)
Lemma filter_category selected products :
  List.filter (λ p, String.eqb (category p) selected) products =
  filter (λ p, category p = selected) products.
Proof.
  induction products as [|p products IH]; [done|]. cbn [List.filter].
  destruct (String.eqb_spec (category p) selected) as [Heq|Hne].
  - rewrite filter_cons_True by done. by rewrite IH.
  - by rewrite filter_cons_False.
Qed.

(** [C4], as amended: the category list is ["All"] followed by the
    distinct categories of the snapshot in first-occurrence order,
    without duplicates among them; a selected category other than
    ["All"] shows the products of exactly that category, in the order
    of the snapshot; ["All"] shows the whole snapshot. *)
Theorem catalog_filter products (selected : string)
    (Hselected : selected ≠ "All") :
  CatalogView.categories products =
    "All" :: distinct_in_order (map category products) ∧
  NoDup (distinct_in_order (map category products)) ∧
  (∀ c, c ∈ distinct_in_order (map category products) ↔
        ∃ p, p ∈ products ∧ category p = c) ∧
  CatalogView.filteredProducts selected products =
    filter (λ p, category p = selected) products ∧
  (∀ p, p ∈ CatalogView.filteredProducts selected products ↔
        p ∈ products ∧ category p = selected) ∧
  CatalogView.filteredProducts "All" products = products.
Proof.
  assert (CatalogView.filteredProducts selected products =
          filter (λ p, category p = selected) products) as Hshown.
  { unfold CatalogView.filteredProducts.
    apply String.eqb_neq in Hselected. rewrite Hselected.
    apply filter_category. }
  split; [unfold CatalogView.categories; by rewrite Set_of_distinct|].
  split; [apply NoDup_distinct_in_order|].
  split.
  { intros c. rewrite elem_of_distinct_in_order, list_elem_of_fmap.
    split; intros (p & ? & ?); by exists p. }
  split; [done|].
  split; [|done].
  intros p. rewrite Hshown, list_elem_of_filter. tauto.
Qed.

(** In a list sorted by a relation, every element of a prefix is
    related to every element after the prefix. *)
Lemma sorted_take_drop {A : Type} (R : relation A) (l : list A) n x y :
  StronglySorted R l → x ∈ take n l → y ∈ drop n l → R x y.
Proof.
  intros Hsorted. revert n.
  induction Hsorted as [|z l Hl IH Hz]; intros n Hx Hy.
  { rewrite take_nil in Hx. by apply elem_of_nil in Hx. }
  destruct n as [|n]; cbn in *.
  { by apply elem_of_nil in Hx. }
  apply elem_of_cons in Hx as [->|Hx].
  - rewrite Forall_forall in Hz. apply Hz.
    by apply (subseteq_drop n l).
  - by apply (IH n).
Qed.
End Views.

Section Home.
Context {value : Type}.
Implicit Types (products : list (Product value)).

(** [C9]: the featured section of the home view shows the first four
    products of the snapshot (all of them when there are fewer), and
    the notice that there are no products exactly when the snapshot is
    empty.  When the snapshot is sorted by a relation (newest first),
    every product shown is related so to every product left out. *)
Theorem featured_items products :
  match HomeView.featured products with
  | HomeView.Cards shown =>
      shown = take 4 products ∧
      length shown = min 4 (length products) ∧
      products = shown ++ drop 4 products ∧
      products ≠ []
  | HomeView.NoProductsYet => products = []
  end ∧
  ∀ newer : relation (Product value),
    StronglySorted newer products →
    ∀ p q, p ∈ take 4 products → q ∈ drop 4 products → newer p q.
Proof.
  split.
  - unfold HomeView.featured, slice0.
    destruct products as [|p products]; [done|].
    change (0 <? length (p :: products)) with true. cbn iota.
    split; [done|]. split; [apply length_take|].
    split; [by rewrite take_drop | done].
  - intros newer Hsorted p q. by apply sorted_take_drop.
Qed.
End Home.

(** * Further properties *)

(** ** The runs of the database actions *)

Section Runs.
Context {value W : Type} `{!Supabase value W}.
Implicit Types (s : Sys value W) (a : AppState value).

Lemma addProduct_run (product : NewProduct value) s :
  let ins := insert_product product (world s) in
  App.addProduct product s =
  match error ins.1 with
  | None =>
      let r := App.fetchData {| app := app s; world := ins.2 |} in
      {| completion := Normal ();
         final := final r;
         trace := [EvInsertProduct product;
                   EvAlert "Product Added Successfully!"] ++ trace r |}
  | Some e =>
      {| completion := Normal ();
         final := {| app := app s; world := ins.2 |};
         trace := [EvInsertProduct product;
                   EvAlert ("Error adding product: " +:+ message e)] |}
  end.
Proof.
  cbn zeta. unfold App.addProduct. js_unfold. cbn.
  destruct (insert_product product (world s)) as [[di [e|]] w1]; cbn; [done|].
  rewrite fetchData_run. done.
Qed.

Lemma deleteProduct_run (key : value) s :
  let q := "Are you sure you want to delete this item?" in
  let c := window_confirm q (world s) in
  let d := delete_product key c.2 in
  App.deleteProduct key s =
  if c.1 then
    match error d.1 with
    | None =>
        let r := App.fetchData {| app := app s; world := d.2 |} in
        {| completion := Normal ();
           final := final r;
           trace := [EvConfirm q; EvDelete "products" key] ++ trace r |}
    | Some e =>
        {| completion := Normal ();
           final := {| app := app s; world := d.2 |};
           trace := [EvConfirm q; EvDelete "products" key;
                     EvAlert ("Error deleting: " +:+ message e)] |}
    end
  else
    {| completion := Normal ();
       final := {| app := app s; world := c.2 |};
       trace := [EvConfirm q] |}.
Proof.
  cbn zeta. unfold App.deleteProduct. js_unfold. cbn.
  destruct (window_confirm _ (world s)) as [[|] w1]; cbn; [|done].
  destruct (delete_product key w1) as [[dd [e|]] w2]; cbn; [done|].
  rewrite fetchData_run. done.
Qed.
End Runs.

(** Runs a handler of the session down to the runs of the database
    actions. *)
Ltac run_handler :=
  unfold Session.handle, AdminDashboard.onSubmit, ProductCard.onSubmit,
    AdminLogin.handleLogin, App.onLogin, App.onLogout, App.onAdminClick;
  js_unfold; cbv beta zeta;
  rewrite ?addProduct_run, ?deleteProduct_run, ?addInquiry_run;
  cbv beta zeta.

(** Cases on the answers of the world that the goal looks at. *)
Ltac case_answers :=
  repeat match goal with
  | |- context [match error ?r with _ => _ end] => destruct (error r)
  | |- context [if (window_confirm ?q ?w).1 then _ else _] =>
      destruct (window_confirm q w).1
  end.

(** A property that holds of each event of an explicit trace by
    computation. *)
Ltac each_event :=
  repeat first [ apply Forall_nil_2 | apply Forall_cons_2; [reflexivity|] ].

(** Membership in an explicit list. *)
Ltac listed :=
  first [ assumption
        | repeat first [ apply list_elem_of_here | apply list_elem_of_further ] ].

(** ** The handlers, one by one *)

Section Handlers.
Context {value W : Type} `{!Supabase value W}.
Variable Number : string → value.
Implicit Types (s : Sys value W) (a : AppState value).

Lemma bind_normal {A B} (m : Js value W A) (f : A → Js value W B) s x :
  completion (m s) = Normal x →
  (m ≫= f) s =
  {| completion := completion (f x (final (m s)));
     final := final (f x (final (m s)));
     trace := trace (m s) ++ trace (f x (final (m s))) |}.
Proof. intros Hm. js_unfold. by rewrite Hm. Qed.

(** What a refresh leaves in its trace. *)
Lemma fetchData_trace s :
  let tr := trace (App.fetchData s) in
  List.filter is_write tr = [] ∧
  List.filter is_dialog tr = [] ∧
  List.filter is_navigation tr = [] ∧
  count_select "products" tr = 1 ∧
  count_select "inquiries" tr = 1.
Proof.
  cbn zeta. rewrite fetchData_run. cbn [trace]. case_answers; done.
Qed.

Lemma fetchData_app s :
  let o := App.fetchData s in
  completion o = Normal () ∧
  view (app (final o)) = view (app s) ∧
  isAdmin (app (final o)) = isAdmin (app s) ∧
  loading (app (final o)) = false.
Proof. cbn zeta. by rewrite fetchData_run. Qed.

Lemma after_fetchData {B} (k : Js value W B) s :
  (App.fetchData;; k) s =
  {| completion := completion (k (final (App.fetchData s)));
     final := final (k (final (App.fetchData s)));
     trace := trace (App.fetchData s) ++ trace (k (final (App.fetchData s))) |}.
Proof.
  apply (bind_normal App.fetchData (λ _, k) s ()). apply fetchData_app.
Qed.

(** [X1]: a refresh is silent and stays where it is: it sends no write
    to the gateway, opens no dialog (a failed fetch goes to the console
    only), calls neither [setView] nor [setIsAdmin], and leaves the view
    and the admin flag as they were. *)
Theorem refresh_is_silent s :
  let o := App.fetchData s in
  List.filter is_write (trace o) = [] ∧
  List.filter is_dialog (trace o) = [] ∧
  List.filter is_navigation (trace o) = [] ∧
  view (app (final o)) = view (app s) ∧
  isAdmin (app (final o)) = isAdmin (app s).
Proof.
  cbn zeta.
  destruct (fetchData_trace s) as (Hw & Hd & Hn & _).
  destruct (fetchData_app s) as (_ & Hv & Ha & _).
  done.
Qed.

(** The view and the admin flag after an action. *)
Lemma handle_navigation (act : Session.Action) s :
  let o := Session.handle Number act s in
  completion o = Normal () ∧
  (view (app (final o)), isAdmin (app (final o))) =
    match act with
    | Session.ClickHome => ("home", isAdmin (app s))
    | Session.ClickCatalog => ("catalog", isAdmin (app s))
    | Session.ClickAdmin =>
        (if isAdmin (app s) then "admin-dashboard" else "admin-login",
         isAdmin (app s))
    | Session.SubmitLogin password =>
        if decide (password = "sk234f90") then ("admin-dashboard", true)
        else (view (app s), isAdmin (app s))
    | Session.ClickLogout => ("home", false)
    | Session.SubmitProduct _ | Session.ClickDelete _
    | Session.SubmitInquiry _ _ => (view (app s), isAdmin (app s))
    end.
Proof.
  cbn zeta. destruct act; run_handler; try done.
  - cbn. case_decide as Hp.
    + by subst.
    + apply String.eqb_neq in Hp. by rewrite Hp.
  - destruct (error _); [done|]. by rewrite fetchData_run.
  - destruct (window_confirm _ _).1; [|done].
    destruct (error _); [done|]. by rewrite fetchData_run.
Qed.

Lemma handle_normal (act : Session.Action) s :
  completion (Session.handle Number act s) = Normal ().
Proof. apply (handle_navigation act s). Qed.

(** [X2]: the navigation of the page is a state machine of its own.
    Every handler ends normally, and the view and the admin flag after a
    user action are given by the action and by the view and the flag
    before it alone: no answer of the gateway or of the user to a dialog
    moves them, and the three database actions leave them as they
    were. *)
Theorem navigation_of_an_action (act : Session.Action) s :
  let o := Session.handle Number act s in
  completion o = Normal () ∧
  (view (app (final o)), isAdmin (app (final o))) =
    match act with
    | Session.ClickHome => ("home", isAdmin (app s))
    | Session.ClickCatalog => ("catalog", isAdmin (app s))
    | Session.ClickAdmin =>
        (if isAdmin (app s) then "admin-dashboard" else "admin-login",
         isAdmin (app s))
    | Session.SubmitLogin password =>
        if decide (password = "sk234f90") then ("admin-dashboard", true)
        else (view (app s), isAdmin (app s))
    | Session.ClickLogout => ("home", false)
    | Session.SubmitProduct _ | Session.ClickDelete _
    | Session.SubmitInquiry _ _ => (view (app s), isAdmin (app s))
    end.
Proof. apply handle_navigation. Qed.


Lemma handle_trace (act : Session.Action) s :
  let tr := trace (Session.handle Number act s) in
  length (List.filter is_write tr) ≤ (if Session.writes act then 1 else 0) ∧
  count_select "products" tr = count_select "inquiries" tr ∧
  count_select "products" tr ≤ (if Session.refreshes act then 1 else 0).
Proof.
  cbn zeta. destruct act; run_handler.
  1-3, 5, 8: cbn; repeat split; lia.
  - destruct (String.eqb _ _); cbn; repeat split; lia.
  - case_answers; try rewrite fetchData_run; cbn [trace completion app final];
      case_answers; cbn; repeat split; lia.
  - case_answers; try rewrite fetchData_run; cbn [trace completion app final];
      case_answers; cbn; repeat split; lia.
Qed.

(** What every action keeps: the loading flag off, a view that the
    renderer knows, and the dashboard for the admin only. *)
Lemma handle_invariant (act : Session.Action) s :
  loading (app s) = false →
  view (app s) ∈ known_views →
  (view (app s) = "admin-dashboard" → isAdmin (app s) = true) →
  let a' := app (final (Session.handle Number act s)) in
  loading a' = false ∧
  view a' ∈ known_views ∧
  (view a' = "admin-dashboard" → isAdmin a' = true).
Proof.
  intros Hl Hv Hd. cbn zeta. unfold known_views in *.
  destruct act; run_handler; case_answers;
    rewrite ?fetchData_run; cbn [app final view isAdmin loading];
    try (split; [done|split; [listed|done]]).
  - destruct (isAdmin (app s)) eqn:Ha; cbn; rewrite ?Ha;
      (split; [done|split; [listed|done]]).
  - destruct (String.eqb _ _); cbn; (split; [done|split; [listed|done]]).
Qed.

Lemma handlers_invariant acts s :
  loading (app s) = false →
  view (app s) ∈ known_views →
  (view (app s) = "admin-dashboard" → isAdmin (app s) = true) →
  let o := Session.handlers Number acts s in
  completion o = Normal () ∧
  loading (app (final o)) = false ∧
  view (app (final o)) ∈ known_views ∧
  (view (app (final o)) = "admin-dashboard" → isAdmin (app (final o)) = true).
Proof.
  revert s. induction acts as [|act acts IH]; intros s Hl Hv Hd; [done|].
  cbn zeta. cbn [Session.handlers].
  rewrite (bind_normal _ _ _ _ (handle_normal act s)). cbn [completion final trace].
  destruct (handle_invariant act s Hl Hv Hd) as (? & ? & ?).
  by apply IH.
Qed.

(** One screen for each view that the renderer knows. *)
Lemma main_known a :
  loading a = false → view a ∈ known_views →
  ∃ x, App.main a = [x] ∧ App.is_spinner x = false ∧
       (App.is_dashboard x = true ↔ view a = "admin-dashboard").
Proof.
  intros Hl Hv. unfold App.main. rewrite Hl.
  unfold known_views in Hv.
  repeat (apply elem_of_cons in Hv as [->|Hv]); [..|by apply elem_of_nil in Hv];
    eexists; (split; [reflexivity|]); done.
Qed.

Lemma run_handlers acts s :
  Session.run Number acts s =
  (App.fetchData;; Session.handlers Number acts) s.
Proof.
  unfold Session.run.
  change (App.effects None) with (App.fetchData (value:=value) (W:=W)).
  apply bind_ext. intros _ s'. apply renders_handlers.
Qed.

Lemma session_invariant acts (w : W) :
  let o := Session.run Number acts {| app := App.init; world := w |} in
  completion o = Normal () ∧
  loading (app (final o)) = false ∧
  view (app (final o)) ∈ known_views ∧
  (view (app (final o)) = "admin-dashboard" → isAdmin (app (final o)) = true).
Proof.
  cbn zeta. rewrite run_handlers, after_fetchData. cbn [completion final trace].
  destruct (fetchData_app {| app := App.init; world := w |}) as (_ & Hv & Ha & Hl).
  apply handlers_invariant; [done| rewrite Hv; apply list_elem_of_here | by rewrite Hv].
Qed.

(** [X3]: whatever the user does and whatever the gateway answers, a
    session that starts with the mount ends normally with the loading
    flag off and one of the four views selected, so that the main
    content is one screen and not the spinner; and the screen is the
    dashboard only when the admin flag is set. *)
Theorem session_shows_one_view acts (w : W) :
  let o := Session.run Number acts {| app := App.init; world := w |} in
  completion o = Normal () ∧
  loading (app (final o)) = false ∧
  view (app (final o)) ∈ known_views ∧
  (∃ x, App.main (app (final o)) = [x] ∧ App.is_spinner x = false) ∧
  (existsb App.is_dashboard (App.main (app (final o))) = true →
   isAdmin (app (final o)) = true).
Proof.
  cbn zeta. destruct (session_invariant acts w) as (Hc & Hl & Hv & Hd).
  destruct (main_known _ Hl Hv) as (x & Hx & Hs & Hdash).
  repeat split; [done..| by exists x |].
  rewrite Hx. cbn. rewrite orb_false_r. intros Hxd. by apply Hd, Hdash.
Qed.

(** The highlight of the navigation bar on a known view. *)
Lemma navbar_known a :
  view a ∈ known_views →
  Nat.b2n (App.home_active (App.navbar a)) +
  Nat.b2n (App.catalog_active (App.navbar a)) +
  Nat.b2n (App.admin_active (App.navbar a)) = 1 ∧
  (App.admin_active (App.navbar a) = true ↔
   view a = "admin-login" ∨ view a = "admin-dashboard").
Proof.
  intros Hv. unfold known_views in Hv. unfold App.navbar. cbn.
  repeat (apply elem_of_cons in Hv as [->|Hv]); [..|by apply elem_of_nil in Hv];
    cbn; (split; [done|]); split; intros; try done; try (by left); try (by right);
    intuition discriminate.
Qed.

(** [X4]: at the end of every session exactly one of the three buttons
    of the navigation bar is highlighted; the admin button is the one
    exactly on the login form and on the dashboard
    ([view.includes('admin')]), and it reads "Dashboard" exactly when the
    admin flag is set. *)
Theorem session_navbar acts (w : W) :
  let a := app (final (Session.run Number acts {| app := App.init; world := w |})) in
  Nat.b2n (App.home_active (App.navbar a)) +
  Nat.b2n (App.catalog_active (App.navbar a)) +
  Nat.b2n (App.admin_active (App.navbar a)) = 1 ∧
  (App.admin_active (App.navbar a) = true ↔
   view a = "admin-login" ∨ view a = "admin-dashboard") ∧
  (App.admin_label (App.navbar a) = "Dashboard" ↔ isAdmin a = true).
Proof.
  cbn zeta. destruct (session_invariant acts w) as (_ & _ & Hv & _).
  destruct (navbar_known _ Hv) as [Hone Hadm].
  split; [done|]. split; [done|].
  unfold App.navbar. cbn [App.admin_label].
  destruct (isAdmin (app (final (Session.run _ _ _)))); split; intros; done.
Qed.

Lemma count_select_app table (tr1 tr2 : list (Event value)) :
  count_select table (tr1 ++ tr2) = count_select table tr1 + count_select table tr2.
Proof. unfold count_select. by rewrite List.filter_app, length_app. Qed.

Lemma handlers_trace acts s :
  let tr := trace (Session.handlers Number acts s) in
  length (List.filter is_write tr) ≤ length (List.filter Session.writes acts) ∧
  count_select "products" tr = count_select "inquiries" tr ∧
  count_select "products" tr ≤ length (List.filter Session.refreshes acts).
Proof.
  revert s. induction acts as [|act acts IH]; intros s.
  { cbn. repeat split; lia. }
  cbn zeta. cbn [Session.handlers].
  rewrite (bind_normal _ _ _ _ (handle_normal act s)). cbn [trace].
  rewrite !count_select_app, List.filter_app, length_app.
  destruct (handle_trace act s) as (Hw & He & Hr).
  destruct (IH (final (Session.handle Number act s))) as (Hw' & He' & Hr').
  cbn [List.filter].
  destruct (Session.writes act), (Session.refreshes act); cbn [length]; lia.
Qed.

(** [X5]: a session sends to the gateway no more writes than the user
    submitted forms and clicked delete buttons, so no write is repeated
    and the mount writes nothing; the two collections are always fetched
    together; they are fetched once at the mount and at most once more
    for each submitted product and each clicked delete. *)
Theorem session_requests acts s :
  let tr := trace (Session.run Number acts s) in
  length (List.filter is_write tr) ≤ length (List.filter Session.writes acts) ∧
  count_select "products" tr = count_select "inquiries" tr ∧
  1 ≤ count_select "products" tr ∧
  count_select "products" tr ≤ 1 + length (List.filter Session.refreshes acts).
Proof.
  cbn zeta. rewrite run_handlers, after_fetchData. cbn [trace].
  rewrite !count_select_app, List.filter_app, length_app.
  destruct (fetchData_trace s) as (Hw & _ & _ & Hp & Hi).
  destruct (handlers_trace acts (final (App.fetchData s))) as (Hw' & He' & Hr').
  rewrite Hw, Hp, Hi. cbn [length]. lia.
Qed.



(** ** What the page offers *)

Lemma step_normal (act : Session.Action) s :
  completion (Session.step Number act s) = Normal ().
Proof.
  unfold Session.step. destruct (Session.enabled _ _); [|done].
  apply handle_normal.
Qed.

(** The dashboard is drawn when the flag is off and the view is the
    dashboard, and then only. *)
Lemma main_no_dashboard a :
  existsb App.is_dashboard (App.main a) = false ↔
  loading a = true ∨ view a ≠ "admin-dashboard".
Proof.
  unfold App.main. destruct (loading a); [split; [by left|done]|].
  destruct (String.eqb_spec (view a) "admin-dashboard") as [Hv|Hne].
  - rewrite Hv. cbn. split; [done|]. by intros [?|?].
  - unfold App.when.
    destruct (String.eqb _ "home"), (String.eqb _ "catalog"),
      (String.eqb _ "admin-login"); cbn; (split; [by right|done]).
Qed.

Lemma step_gate (act : Session.Action) s :
  Session.is_password_login act = false →
  isAdmin (app s) = false →
  existsb App.is_dashboard (App.main (app s)) = false →
  let o := Session.step Number act s in
  Forall (λ ev, is_product_write ev = false) (trace o) ∧
  isAdmin (app (final o)) = false ∧
  existsb App.is_dashboard (App.main (app (final o))) = false.
Proof.
  intros Hact Ha Hd. cbn zeta. unfold Session.step.
  destruct act; cbn [Session.enabled]; rewrite ?Hd; try done.
  - run_handler. cbn. split; [each_event|]. split; [done|].
    apply main_no_dashboard. by right.
  - run_handler. cbn. split; [each_event|]. split; [done|].
    apply main_no_dashboard. by right.
  - run_handler. rewrite Ha. cbn. split; [each_event|]. split; [done|].
    apply main_no_dashboard. by right.
  - destruct (existsb App.is_login _); [|done].
    run_handler. cbn in Hact. cbn. by rewrite Hact.
  - destruct (existsb App.is_catalog _); [|done].
    run_handler. cbn [trace final app]. split; [each_event|]. done.
Qed.

Lemma steps_gate acts s :
  Forall (λ act, Session.is_password_login act = false) acts →
  isAdmin (app s) = false →
  existsb App.is_dashboard (App.main (app s)) = false →
  let o := Session.steps Number acts s in
  completion o = Normal () ∧
  Forall (λ ev, is_product_write ev = false) (trace o) ∧
  isAdmin (app (final o)) = false ∧
  existsb App.is_dashboard (App.main (app (final o))) = false.
Proof.
  intros Hacts. revert s.
  induction Hacts as [|act acts Hact Hacts IH]; intros s Ha Hd.
  { cbn. repeat split; [constructor|done..]. }
  cbn zeta. cbn [Session.steps].
  rewrite (bind_normal _ _ _ _ (step_normal act s)). cbn [completion final trace].
  destruct (step_gate act s Hact Ha Hd) as (Ht & Ha' & Hd').
  destruct (IH _ Ha' Hd') as (Hc & Ht' & Ha'' & Hd'').
  repeat split; [done| |done..]. by apply Forall_app.
Qed.

(** [X7]: the password gates the product table.  In a session in which
    the user takes only actions that the page offers and never submits
    the password ["sk234f90"], no insert and no delete of a product
    reaches the gateway, the admin flag stays off and the dashboard is
    never the screen, whatever the gateway answers. *)
Theorem admin_gate acts (w : W) :
  Forall (λ act, Session.is_password_login act = false) acts →
  let o := Session.play Number acts {| app := App.init; world := w |} in
  completion o = Normal () ∧
  Forall (λ ev, is_product_write ev = false) (trace o) ∧
  isAdmin (app (final o)) = false ∧
  existsb App.is_dashboard (App.main (app (final o))) = false.
Proof.
  intros Hacts. cbn zeta. unfold Session.play.
  rewrite after_fetchData. cbn [completion final trace].
  destruct (fetchData_app {| app := App.init; world := w |}) as (_ & Hv & Ha & Hl).
  destruct (steps_gate acts (final (App.fetchData {| app := App.init; world := w |})) Hacts)
    as (Hc & Ht & Ha' & Hd').
  - by rewrite Ha.
  - apply main_no_dashboard. right. by rewrite Hv.
  - repeat split; [done| |done..].
    apply Forall_app. split; [|done].
    destruct (fetchData_trace {| app := App.init; world := w |}) as (Hw & _).
    apply Forall_forall. intros ev Hev.
    destruct (is_product_write ev) eqn:Hpw; [|done].
    assert (ev ∈ List.filter is_write
                   (trace (App.fetchData {| app := App.init; world := w |}))) as Hin.
    { apply list_elem_of_In, List.filter_In. split; [by apply list_elem_of_In|].
      by destruct ev. }
    rewrite Hw in Hin. by apply elem_of_nil in Hin.
Qed.





(** [X10]: the admin flag outlives the navigation and ends with the
    logout.  After a login, wherever the user navigates, the admin button
    leads to the dashboard without the login form; after a logout it
    leads to the login form, whatever the state was. *)
Theorem admin_button_after_login_and_logout (page : string) s :
  let after_login := (App.onLogin;; App.navigate page;; App.onAdminClick) s in
  let after_logout := (App.onLogout;; App.onAdminClick) s in
  view (app (final after_login)) = "admin-dashboard" ∧
  isAdmin (app (final after_login)) = true ∧
  view (app (final after_logout)) = "admin-login" ∧
  isAdmin (app (final after_logout)) = false.
Proof.
  cbn zeta. unfold App.onLogin, App.onLogout, App.onAdminClick. js_unfold. done.
Qed.

(** ** A write that succeeds and a refresh that fails *)

(** [X11]: when the user confirms, the delete succeeds and the fetch of
    the products that follows fails, the delete has reached the gateway
    but the page shows the products it showed before, the deleted one
    among them; the failure goes to the console, the only dialog the user
    saw is the confirmation, and the loading flag is off again. *)
Theorem delete_then_failed_fetch (key : value) s e :
  let q := "Are you sure you want to delete this item?" in
  let c := window_confirm q (world s) in
  let d := delete_product key c.2 in
  c.1 = true →
  error d.1 = None →
  error (select_products d.2).1 = Some e →
  let o := App.deleteProduct key s in
  EvDelete "products" key ∈ trace o ∧
  EvConsoleError "Error fetching products:" (message e) ∈ trace o ∧
  Forall (λ ev, is_dialog ev = true → ev = EvConfirm q) (trace o) ∧
  products (app (final o)) = products (app s) ∧
  loading (app (final o)) = false.
Proof.
  cbn zeta. intros Hc Hd Hf. rewrite deleteProduct_run. cbn zeta.
  rewrite Hc, Hd, fetchData_run. cbn [trace final app products loading world].
  rewrite Hf.
  split; [listed|]. split; [listed|]. split; [|done].
  case_answers; repeat (apply Forall_cons_2; [by intros|]); apply Forall_nil_2.
Qed.

(** [X12]: when the insert of a product succeeds and the fetch of the
    products that follows fails, the user is told that the product was
    added, and that is the only dialog, while the page shows the products
    it showed before, without the new one; the failure goes to the
    console. *)
Theorem add_then_failed_fetch (product : NewProduct value) s e :
  let ins := insert_product product (world s) in
  error ins.1 = None →
  error (select_products ins.2).1 = Some e →
  let o := App.addProduct product s in
  Forall (λ ev, is_dialog ev = true → ev = EvAlert "Product Added Successfully!")
         (trace o) ∧
  EvAlert "Product Added Successfully!" ∈ trace o ∧
  EvConsoleError "Error fetching products:" (message e) ∈ trace o ∧
  products (app (final o)) = products (app s) ∧
  loading (app (final o)) = false.
Proof.
  cbn zeta. intros Hi Hf. rewrite addProduct_run. cbn zeta.
  rewrite Hi, fetchData_run. cbn [trace final app products loading world].
  rewrite Hf.
  split; [|split; [listed|split; [listed|done]]].
  case_answers; repeat (apply Forall_cons_2; [by intros|]); apply Forall_nil_2.
Qed.

(** [X13]: submitting the add-product form closes the modal whatever the
    gateway answers, also when the insert fails; the insert of the
    product built from the form is the first thing that happens and the
    only write. *)
Theorem add_product_form_closes (formData : AdminDashboard.FormData) s :
  let o := AdminDashboard.onSubmit Number App.addProduct formData s in
  completion o = Normal false ∧
  List.filter is_write (trace o) =
    [EvInsertProduct (AdminDashboard.submitted Number formData)] ∧
  head (trace o) = Some (EvInsertProduct (AdminDashboard.submitted Number formData)).
Proof.
  cbn zeta. unfold AdminDashboard.onSubmit. js_unfold. cbv beta zeta.
  rewrite addProduct_run. cbv beta zeta.
  case_answers; rewrite ?fetchData_run; cbn [completion trace]; case_answers; done.
Qed.
End Handlers.

(** ** The catalog *)

Section Catalog.
Context {value : Type}.
Implicit Types (products : list (Product value)).

Lemma filter_eqb_NoDup (selected : string) (l : list string) :
  NoDup l →
  length (List.filter (String.eqb selected) l) =
  if decide (selected ∈ l) then 1 else 0.
Proof.
  induction 1 as [|x l Hx Hl IH]; [done|]. cbn [List.filter].
  destruct (String.eqb_spec selected x) as [->|Hne].
  - cbn [length]. rewrite IH.
    rewrite decide_False by done. rewrite decide_True by apply list_elem_of_here. done.
  - rewrite IH. destruct (decide (selected ∈ l)) as [Hin|Hin].
    + rewrite decide_True by by apply list_elem_of_further. done.
    + rewrite decide_False; [done|]. intros [?|?]%elem_of_cons; done.
Qed.

Lemma filter_snd_buttons (selected : string) (l : list string) :
  List.filter snd (map (λ cat, (cat, String.eqb selected cat)) l) =
  map (λ cat, (cat, true)) (List.filter (String.eqb selected) l).
Proof.
  induction l as [|x l IH]; [done|]. cbn.
  destruct (String.eqb selected x) eqn:Hx; cbn; by rewrite IH.
Qed.

(** [X14]: the category buttons.  Their texts are pairwise different
    (they are the React keys) exactly when no product has the category
    ["All"].  The number of buttons drawn as selected is one for a
    category of the snapshot, none for a filter that is no category of
    the snapshot any more, and for ["All"] one, or two when a product has
    the category ["All"]. *)
Theorem category_buttons (selected : string) products :
  (NoDup (CatalogView.categories products) ↔ "All" ∉ map category products) ∧
  length (List.filter snd (CatalogView.buttons selected products)) =
    (if decide (selected = "All")
     then (if decide ("All" ∈ map category products) then 2 else 1)
     else (if decide (selected ∈ map category products) then 1 else 0)).
Proof.
  unfold CatalogView.buttons, CatalogView.categories.
  rewrite Set_of_distinct. split.
  - rewrite NoDup_cons, elem_of_distinct_in_order.
    split; [tauto|]. intros. split; [done|apply NoDup_distinct_in_order].
  - rewrite filter_snd_buttons, length_map. cbn [List.filter].
    destruct (String.eqb_spec selected "All") as [->|Hne].
    + rewrite decide_True by done. cbn [length].
      rewrite filter_eqb_NoDup by apply NoDup_distinct_in_order.
      rewrite (decide_ext _ _ 1 0 (elem_of_distinct_in_order (map category products) "All")).
      by destruct (decide _).
    + rewrite decide_False by done.
      rewrite filter_eqb_NoDup by apply NoDup_distinct_in_order.
      apply decide_ext, elem_of_distinct_in_order.
Qed.

(** [X15]: every product of the snapshot can be found: its category is
    among the buttons, selecting it shows the product, as does ["All"],
    and the notice that no product was found is not shown. *)
Theorem catalog_product_findable products (p : Product value) :
  p ∈ products →
  category p ∈ CatalogView.categories products ∧
  p ∈ CatalogView.filteredProducts (category p) products ∧
  p ∈ CatalogView.filteredProducts "All" products ∧
  CatalogView.empty_notice (category p) products = false.
Proof.
  intros Hp.
  assert (p ∈ CatalogView.filteredProducts (category p) products) as Hshown.
  { unfold CatalogView.filteredProducts.
    destruct (String.eqb _ "All"); [done|].
    rewrite filter_category. apply list_elem_of_filter. done. }
  split.
  { unfold CatalogView.categories. rewrite Set_of_distinct.
    apply list_elem_of_further, elem_of_distinct_in_order.
    by apply list_elem_of_fmap_2. }
  split; [done|]. split; [done|].
  unfold CatalogView.empty_notice.
  destruct (CatalogView.filteredProducts _ _); [by apply elem_of_nil in Hshown|done].
Qed.

(** [X16]: the notice "No products found" is shown exactly when
    ["All"] is selected and the snapshot is empty, or another filter is
    selected that no product has as category; with a filter that is among
    the buttons, exactly when the snapshot is empty. *)
Theorem empty_notice_iff (selected : string) products :
  (CatalogView.empty_notice selected products = true ↔
   (selected = "All" ∧ products = []) ∨
   (selected ≠ "All" ∧ selected ∉ map category products)) ∧
  (selected ∈ CatalogView.categories products →
   (CatalogView.empty_notice selected products = true ↔ products = [])).
Proof.
  assert (CatalogView.empty_notice selected products = true ↔
   (selected = "All" ∧ products = []) ∨
   (selected ≠ "All" ∧ selected ∉ map category products)) as Hiff.
  { unfold CatalogView.empty_notice, CatalogView.filteredProducts.
    rewrite Nat.eqb_eq, length_zero_iff_nil.
    destruct (String.eqb_spec selected "All") as [->|Hne].
    - split; [by left|]. by intros [[_ ?]|[? _]].
    - rewrite filter_category. split.
      + intros Hnil. right. split; [done|].
        intros (p & Hc & Hp)%list_elem_of_fmap.
        assert (p ∈ filter (λ p, category p = selected) products) as Hin
          by by apply list_elem_of_filter.
        rewrite Hnil in Hin. by apply elem_of_nil in Hin.
      + intros [[? _]|[_ Hout]]; [done|].
        destruct (filter _ products) as [|p l] eqn:Hf; [done|].
        assert (p ∈ filter (λ p, category p = selected) products) as Hin
          by (rewrite Hf; apply list_elem_of_here).
        apply list_elem_of_filter in Hin as [Hc Hp].
        destruct Hout. apply list_elem_of_fmap. by exists p. }
  split; [done|].
  unfold CatalogView.categories. rewrite Set_of_distinct.
  intros Hin. rewrite Hiff. split.
  - intros [[_ ?]|[Hne Hout]]; [done|].
    apply elem_of_cons in Hin as [?|Hin]; [done|].
    destruct Hout. by apply elem_of_distinct_in_order.
  - intros ->. apply elem_of_cons in Hin as [->|Hin]; [by left|].
    by apply elem_of_nil in Hin.
Qed.

(** Filtering a list by each of its keys in turn loses and repeats
    nothing. *)
Lemma concat_filter_by_key {A K : Type} `{EqDecision K}
    (key : A → K) (ks : list K) (l : list A) :
  NoDup ks →
  (∀ x, x ∈ l → key x ∈ ks) →
  concat ((λ k, filter (λ x, key x = k) l) <$> ks) ≡ₚ l.
Proof.
  intros Hks. revert l. induction Hks as [|k ks Hk Hks IH]; intros l Hl.
  { destruct l as [|x l]; [done|]. specialize (Hl x (list_elem_of_here _ _)).
    by apply elem_of_nil in Hl. }
  cbn [fmap list_fmap concat].
  transitivity (filter (λ x, key x = k) l ++ filter (λ x, ¬ key x = k) l);
    [|apply filter_app_complement].
  apply Permutation_app_head.
  rewrite <- (IH (filter (λ x, ¬ key x = k) l)).
  - assert ((λ k', filter (λ x, key x = k') l) <$> ks =
            (λ k', filter (λ x, key x = k') (filter (λ x, ¬ key x = k) l)) <$> ks)
      as ->; [|done].
    apply Forall_fmap_ext_1, Forall_forall.
    intros k' Hk'. rewrite list_filter_filter.
    apply list_filter_iff. intros x. split; [|tauto].
    intros Hx. split; [done|]. intros Hxk. apply Hk. by rewrite <- Hxk, Hx.
  - intros x [Hx Hin]%list_elem_of_filter.
    specialize (Hl x Hin). apply elem_of_cons in Hl as [?|?]; done.
Qed.

(** [X17]: when no product has the category ["All"], the lists shown
    under the category buttons after ["All"] together hold every product
    of the snapshot once. *)
Theorem catalog_partition products :
  "All" ∉ map category products →
  concat (map (λ c, CatalogView.filteredProducts c products)
              (tail (CatalogView.categories products))) ≡ₚ products.
Proof.
  intros HAll. unfold CatalogView.categories. cbn [tail].
  rewrite Set_of_distinct.
  assert (map (λ c, CatalogView.filteredProducts c products)
              (distinct_in_order (map category products)) =
          (λ c, filter (λ p, category p = c) products) <$>
              distinct_in_order (map category products)) as ->.
  { apply Forall_fmap_ext_1, Forall_forall. intros c Hc.
    unfold CatalogView.filteredProducts.
    destruct (String.eqb_spec c "All") as [->|Hne].
    - destruct HAll. by apply elem_of_distinct_in_order.
    - apply filter_category. }
  apply concat_filter_by_key; [apply NoDup_distinct_in_order|].
  intros p Hp. apply elem_of_distinct_in_order. by apply list_elem_of_fmap_2.
Qed.
End Catalog.
(** * Examples on the scripted world *)

Section Examples.
Import Scripted.

(** [C1], as stated, fails: the fetch of the products gives an error
    and the product collection is not the empty sequence after the
    refresh; it is what it was before. *)
Lemma fetchData_error_keeps_products :
  let s := {| app := loaded; world := products_down |} in
  let o := App.fetchData s in
  error (select_products (world s)).1 = Some {| message := "connection refused" |} ∧
  trace o =
    [EvState (SetLoading true);
     EvSelect "products";
     EvConsoleError "Error fetching products:" "connection refused";
     EvSelect "inquiries";
     EvState (SetInquiries []);
     EvState (SetLoading false)] ∧
  products (app (final o)) = [bowl] ∧
  products (app (final o)) ≠ [].
Proof. repeat split. discriminate. Qed.

(** [C4], as stated, fails: ["All"] is a category of the snapshot, and
    selecting it shows a product of another category. *)
Lemma catalog_All_is_not_a_filter :
  "All" ∈ map category snapshot_with_All ∧
  CatalogView.categories snapshot_with_All = ["All"; "All"; "Pottery"] ∧
  CatalogView.filteredProducts "All" snapshot_with_All = [product "7" "All"; bowl] ∧
  filter (λ p, category p = "All") snapshot_with_All = [product "7" "All"] ∧
  CatalogView.filteredProducts "All" snapshot_with_All ≠
    filter (λ p, category p = "All") snapshot_with_All.
Proof.
  split; [apply list_elem_of_here|].
  repeat split. discriminate.
Qed.

(** The category filter on the snapshot with two categories. *)
Lemma catalog_filter_witness :
  "Weaving" ≠ "All" ∧
  CatalogView.categories snapshot = ["All"; "Pottery"; "Weaving"] ∧
  CatalogView.filteredProducts "Weaving" snapshot = [rug] ∧
  CatalogView.filteredProducts "All" snapshot = snapshot.
Proof.
  assert ("Weaving" ≠ "All") as Hne by discriminate.
  destruct (catalog_filter snapshot "Weaving" Hne)
    as (Hcats & _ & _ & Hshown & _ & Hall).
  split; [exact Hne|].
  split; [rewrite Hcats; reflexivity|].
  split; [rewrite Hshown; reflexivity | exact Hall].
Defined.

(** The spinner, and nothing else, while the flag is set. *)
Lemma loading_flag_witness :
  let a := apply_update (SetLoading true) loaded in
  loading a = true ∧
  App.main a = [App.Spinner] ∧
  App.main loaded = [App.AdminDashboard [bowl] []].
Proof.
  split; [reflexivity|]. split; [|reflexivity].
  exact (proj1 (proj2 (loading_flag (W := World) Number))
           (apply_update (SetLoading true) loaded) eq_refl).
Defined.

(** The inquiry of the specification's scenario, and a row that comes
    with a status of its own. *)
Lemma inquiry_submission_witness :
  let s := {| app := loaded; world := calm |} in
  let o := ProductCard.onSubmit bowl App.addInquiry asha s in
  let old : gmap string string := {[ "status" := "Old"; "customer" := "Asha" ]} in
  trace o =
    [EvInsertInquiry
       {[ "product" := "Clay Bowl"; "customer" := "Asha";
          "contact" := "555-0100"; "message" := ""; "status" := "New" ]};
     EvAlert "Inquiry Sent! The artisan will contact you shortly."] ∧
  "customer" ≠ "status" ∧
  <["status" := "New"]> old !! "customer" = Some "Asha" ∧
  <["status" := "New"]> old !! "status" = Some "New".
Proof.
  intros s o old.
  destruct (inquiry_submission bowl asha s) as (Htrace & _ & _ & _ & _ & Hany).
  destruct (Hany old s) as (Hstatus & Hother & _).
  assert ("customer" ≠ "status") as Hne by discriminate.
  split; [exact Htrace|]. split; [exact Hne|].
  split; [rewrite (Hother "customer" Hne); reflexivity | exact Hstatus].
Defined.

(** Four of five products are shown, and each is newer than the one
    left out. *)
Lemma featured_items_witness :
  StronglySorted newer five ∧
  HomeView.featured five = HomeView.Cards (take 4 five) ∧
  newer (product "2" "Pottery") (product "1" "Pottery") ∧
  newer (product "5" "Pottery") (product "1" "Pottery").
Proof.
  assert (StronglySorted newer five) as Hsorted.
  { repeat (constructor; [|repeat constructor]). constructor. }
  destruct (featured_items five) as [Hshown Hnewest].
  split; [exact Hsorted|]. split; [reflexivity|].
  split; apply (Hnewest newer Hsorted);
    repeat first [ apply list_elem_of_here | apply list_elem_of_further ].
Defined.

(** A wrong password: nothing is set in [App], the form shows the
    message. *)
Example login_with_wrong_password :
  let s : Sys string World := {| app := App.init; world := calm |} in
  let o := AdminLogin.handleLogin App.onLogin
             {| AdminLogin.pass := "admin"; AdminLogin.error_text := "" |} s in
  trace o = [] ∧ final o = s ∧
  (AdminLogin.inline_error <$> completion_value o) = Some (Some "Invalid Password (Hint: admin)").
Proof. repeat split. Qed.

(** The right password. *)
Example login_with_the_password :
  let s : Sys string World := {| app := App.init; world := calm |} in
  let o := AdminLogin.handleLogin App.onLogin
             {| AdminLogin.pass := "sk234f90"; AdminLogin.error_text := "" |} s in
  trace o = [EvState (SetIsAdmin true); EvState (SetView "admin-dashboard")] ∧
  isAdmin (app (final o)) = true ∧ view (app (final o)) = "admin-dashboard".
Proof. repeat split. Qed.

(** A delete that the user declines. *)
Example delete_declined :
  let w := {| on_select_products := success []; on_select_inquiries := success [];
              on_insert_product := success (); on_insert_inquiry := success ();
              on_delete := success (); on_confirm := false |} in
  let o := App.deleteProduct "1" {| app := loaded; world := w |} in
  trace o = [EvConfirm "Are you sure you want to delete this item?"] ∧
  app (final o) = loaded.
Proof. repeat split. Qed.

(** A delete that the user confirms, in a world whose product table is
    empty afterwards. *)
Example delete_confirmed :
  let o := App.deleteProduct "1" {| app := loaded; world := calm |} in
  trace o =
    [EvConfirm "Are you sure you want to delete this item?";
     EvDelete "products" "1";
     EvState (SetLoading true);
     EvSelect "products"; EvState (SetProducts []);
     EvSelect "inquiries"; EvState (SetInquiries []);
     EvState (SetLoading false)] ∧
  products (app (final o)) = [].
Proof. repeat split. Qed.

(** The add-product form with and without an image file name. *)
Example image_of_the_form :
  let form image :=
    {| AdminDashboard.fd_name := "Clay Bowl"; AdminDashboard.fd_category := "Pottery";
       AdminDashboard.fd_price := "450"; AdminDashboard.fd_description := "Hand-thrown bowl";
       AdminDashboard.fd_image := image |} in
  new_image (AdminDashboard.submitted Number (form "bowl.jpg")) = "/bowl.jpg" ∧
  new_image (AdminDashboard.submitted Number (form "")) = AdminDashboard.placeholder.
Proof. repeat split. Qed.

(** A logout from the dashboard. *)
Example logout_from_dashboard :
  let o := App.onLogout {| app := loaded; world := calm |} in
  trace o =
    [EvState (SetIsAdmin false); EvState (SetView "home");
     EvAlert "Logged out successfully"] ∧
  App.main (app (final o)) = [App.HomeView [bowl]].
Proof. repeat split. Qed.

(** A visitor without the password. *)
Lemma admin_gate_witness :
  let o := Session.play Number visitor {| app := App.init; world := calm |} in
  Forall (λ act, Session.is_password_login act = false) visitor ∧
  Forall (λ ev, is_product_write ev = false) (trace o) ∧
  List.filter is_write (trace o) =
    [EvInsertInquiry
       {[ "product" := "Clay Bowl"; "customer" := "Asha";
          "contact" := "555-0100"; "message" := ""; "status" := "New" ]}] ∧
  isAdmin (app (final o)) = false ∧
  view (app (final o)) = "admin-login".
Proof.
  assert (Forall (λ act, Session.is_password_login act = false) visitor) as Hv
    by (unfold visitor; each_event).
  destruct (admin_gate Number visitor calm Hv) as (_ & Ht & Ha & _).
  split; [exact Hv|]. split; [exact Ht|]. split; [reflexivity|].
  split; [exact Ha | reflexivity].
Defined.




(** The delete goes through and the fetch after it fails. *)
Lemma delete_then_failed_fetch_witness :
  let s := {| app := loaded; world := products_down |} in
  let o := App.deleteProduct "1" s in
  (window_confirm "Are you sure you want to delete this item?" (world s)).1 = true ∧
  EvDelete "products" "1" ∈ trace o ∧
  products (app (final o)) = [bowl].
Proof.
  pose proof (delete_then_failed_fetch "1"
                {| app := loaded; world := products_down |}
                {| message := "connection refused" |}) as Hstale.
  destruct (Hstale eq_refl eq_refl eq_refl) as (Hd & _ & _ & Hp & _).
  split; [reflexivity|]. split; [exact Hd | exact Hp].
Defined.

(** The insert goes through and the fetch after it fails. *)
Lemma add_then_failed_fetch_witness :
  let s := {| app := loaded; world := products_down |} in
  let o := App.addProduct (AdminDashboard.submitted Number clay_form) s in
  error (insert_product (AdminDashboard.submitted Number clay_form) (world s)).1 = None ∧
  EvAlert "Product Added Successfully!" ∈ trace o ∧
  products (app (final o)) = [bowl].
Proof.
  pose proof (add_then_failed_fetch (AdminDashboard.submitted Number clay_form)
                {| app := loaded; world := products_down |}
                {| message := "connection refused" |}) as Hstale.
  destruct (Hstale eq_refl eq_refl) as (_ & Ha & _ & Hp & _).
  split; [reflexivity|]. split; [exact Ha | exact Hp].
Defined.

(** The rug is found under its category. *)
Lemma catalog_product_findable_witness :
  rug ∈ snapshot ∧
  "Weaving" ∈ CatalogView.categories snapshot ∧
  rug ∈ CatalogView.filteredProducts "Weaving" snapshot ∧
  CatalogView.empty_notice "Weaving" snapshot = false.
Proof.
  assert (rug ∈ snapshot) as Hr by (unfold snapshot; listed).
  destruct (catalog_product_findable snapshot rug Hr) as (Hc & Hs & _ & Hn).
  split; [exact Hr|]. split; [exact Hc|]. split; [exact Hs | exact Hn].
Defined.

(** A filter that is among the buttons, and one that is not. *)
Lemma empty_notice_iff_witness :
  "Weaving" ∈ CatalogView.categories snapshot ∧
  (CatalogView.empty_notice "Weaving" snapshot = true ↔ snapshot = []) ∧
  CatalogView.empty_notice "Glass" snapshot = true.
Proof.
  assert ("Weaving" ∈ CatalogView.categories snapshot) as Hw
    by (vm_compute; listed).
  split; [exact Hw|].
  split; [exact (proj2 (empty_notice_iff "Weaving" snapshot) Hw)|].
  apply (proj1 (empty_notice_iff "Glass" snapshot)). right.
  split; [discriminate|].
  intros Hin. vm_compute in Hin.
  repeat (apply elem_of_cons in Hin as [Hin|Hin]; [discriminate|]).
  by apply elem_of_nil in Hin.
Defined.

(** The two categories of the snapshot share its three products. *)
Lemma catalog_partition_witness :
  "All" ∉ map category snapshot ∧
  (concat (map (λ c, CatalogView.filteredProducts c snapshot) ["Pottery"; "Weaving"])
     ≡ₚ snapshot).
Proof.
  assert ("All" ∉ map category snapshot) as Hno.
  { intros Hin. vm_compute in Hin.
    repeat (apply elem_of_cons in Hin as [Hin|Hin]; [discriminate|]).
    by apply elem_of_nil in Hin. }
  split; [exact Hno|].
  exact (catalog_partition snapshot Hno).
Defined.

(** The dashboard at the end of a session, and the admin flag with it. *)
Lemma session_shows_one_view_witness :
  let s : Sys string World := {| app := App.init; world := calm |} in
  let o := Session.run Number admin_login s in
  existsb App.is_dashboard (App.main (app (final o))) = true ∧
  isAdmin (app (final o)) = true.
Proof.
  split; [reflexivity|].
  exact (proj2 (proj2 (proj2 (proj2 (session_shows_one_view Number admin_login calm))))
           eq_refl).
Defined.

(** A session with no action: one fetch of each table. *)
Example session_start :
  let s : Sys string World := {| app := App.init; world := calm |} in
  let o := Session.run Number [] s in
  trace o =
    [EvState (SetLoading true);
     EvSelect "products"; EvState (SetProducts []);
     EvSelect "inquiries"; EvState (SetInquiries []);
     EvState (SetLoading false)] ∧
  App.main (app (final o)) = [App.HomeView []].
Proof. repeat split. Qed.
End Examples.
